(** * Session store and view controller of [src/app/app.component.ts]

    A shallow embedding of the [AuthService] class and of the [App]
    component: the browser's [localStorage], the console, the outbound
    HTTP requests and the Angular signals of both classes form one
    explicit [World]; every method is a computation in a small state
    monad over it, written statement by statement after the source. *)

From stdpp Require Import base strings gmap list.

(** ** Interfaces and types *)

(** [interface AuthResponse { token: string; role: string }].  The field
    names carry a prefix because [token] and [role] are also the names of
    the two signals of [AuthService]. *)
Record AuthResponse := {
  response_token : string;
  response_role : string
}.

(** [type Page = 'login' | 'dashboard'] *)
Inductive Page := login | dashboard.

(** [a === b] on pages. *)
Definition Page_eqb (a b : Page) : bool :=
  match a, b with
  | login, login | dashboard, dashboard => true
  | _, _ => false
  end.

(** The string a [Page] is when it is spliced into a template literal. *)
Definition Page_to_string (page : Page) : string :=
  match page with
  | login => "login"
  | dashboard => "dashboard"
  end.

(** The [loginData] object bound to the form. *)
Record Credentials := {
  username : string;
  password : string
}.

(** What [HttpClient.post] is asked to send. *)
Record HttpRequest := {
  request_url : string;
  request_body : Credentials
}.

(** The value handed to the [error] callback; the handler never looks
    at it. *)
Inductive HttpError :=
  | Unauthorized
  | TransportError (status : Z).

(** How the one request of a submission completes. *)
Inductive LoginOutcome :=
  | Succeeded (response : AuthResponse)
  | Failed (err : HttpError).

Inductive ConsoleLevel := Log | Warn.

(** ** The world the two classes live in *)

Record World := {
  localStorage : gmap string string;
  console : list (ConsoleLevel * string);
  requests : list HttpRequest;
  (* signals of AuthService *)
  token : option string;
  role : option string;
  (* fields of App *)
  loginData : Credentials;
  currentPage : Page;
  errorMsg : option string;
  isSubmitting : bool
}.

(** ** A state monad over [World] *)

Definition M (A : Type) : Type := World → A * World.

Global Instance M_ret : MRet M := λ A x w, (x, w).
Global Instance M_bind : MBind M :=
  λ A B f m w, let '(x, w') := m w in f x w'.

Definition exec {A} (m : M A) (w : World) : World := (m w).2.
Definition eval {A} (m : M A) (w : World) : A := (m w).1.

(** JavaScript's [!!x] on a [string | null]: [null] and the empty string
    are falsy, every other string is truthy. *)
Definition truthy (x : option string) : bool :=
  match x with
  | None => false
  | Some "" => false
  | Some (String _ _) => true
  end.

(** *** Browser primitives *)

Definition localStorage_getItem (key : string) : M (option string) :=
  λ w, (localStorage w !! key, w).

Definition localStorage_setItem (key value : string) : M unit :=
  λ w, (tt, {| localStorage := <[key := value]> (localStorage w);
               console := console w; requests := requests w;
               token := token w; role := role w;
               loginData := loginData w; currentPage := currentPage w;
               errorMsg := errorMsg w; isSubmitting := isSubmitting w |}).

Definition localStorage_removeItem (key : string) : M unit :=
  λ w, (tt, {| localStorage := delete key (localStorage w);
               console := console w; requests := requests w;
               token := token w; role := role w;
               loginData := loginData w; currentPage := currentPage w;
               errorMsg := errorMsg w; isSubmitting := isSubmitting w |}).

Definition console_emit (level : ConsoleLevel) (msg : string) : M unit :=
  λ w, (tt, {| localStorage := localStorage w;
               console := console w ++ [(level, msg)];
               requests := requests w;
               token := token w; role := role w;
               loginData := loginData w; currentPage := currentPage w;
               errorMsg := errorMsg w; isSubmitting := isSubmitting w |}).

Definition console_log : string → M unit := console_emit Log.
Definition console_warn : string → M unit := console_emit Warn.

(** Subscribing to the observable [HttpClient.post] returns sends the
    request; its completion comes back later as a [LoginOutcome]. *)
Definition subscribe (req : HttpRequest) : M unit :=
  λ w, (tt, {| localStorage := localStorage w; console := console w;
               requests := requests w ++ [req];
               token := token w; role := role w;
               loginData := loginData w; currentPage := currentPage w;
               errorMsg := errorMsg w; isSubmitting := isSubmitting w |}).

(** *** Signals: [s()] reads, [s.set(v)] writes *)

Definition token_get : M (option string) := λ w, (token w, w).
Definition token_set (v : option string) : M unit :=
  λ w, (tt, {| localStorage := localStorage w; console := console w;
               requests := requests w;
               token := v; role := role w;
               loginData := loginData w; currentPage := currentPage w;
               errorMsg := errorMsg w; isSubmitting := isSubmitting w |}).

Definition role_get : M (option string) := λ w, (role w, w).
Definition role_set (v : option string) : M unit :=
  λ w, (tt, {| localStorage := localStorage w; console := console w;
               requests := requests w;
               token := token w; role := v;
               loginData := loginData w; currentPage := currentPage w;
               errorMsg := errorMsg w; isSubmitting := isSubmitting w |}).

Definition loginData_get : M Credentials := λ w, (loginData w, w).
Definition loginData_set (v : Credentials) : M unit :=
  λ w, (tt, {| localStorage := localStorage w; console := console w;
               requests := requests w;
               token := token w; role := role w;
               loginData := v; currentPage := currentPage w;
               errorMsg := errorMsg w; isSubmitting := isSubmitting w |}).

Definition currentPage_get : M Page := λ w, (currentPage w, w).
Definition currentPage_set (v : Page) : M unit :=
  λ w, (tt, {| localStorage := localStorage w; console := console w;
               requests := requests w;
               token := token w; role := role w;
               loginData := loginData w; currentPage := v;
               errorMsg := errorMsg w; isSubmitting := isSubmitting w |}).

Definition errorMsg_set (v : option string) : M unit :=
  λ w, (tt, {| localStorage := localStorage w; console := console w;
               requests := requests w;
               token := token w; role := role w;
               loginData := loginData w; currentPage := currentPage w;
               errorMsg := v; isSubmitting := isSubmitting w |}).

Definition isSubmitting_set (v : bool) : M unit :=
  λ w, (tt, {| localStorage := localStorage w; console := console w;
               requests := requests w;
               token := token w; role := role w;
               loginData := loginData w; currentPage := currentPage w;
               errorMsg := errorMsg w; isSubmitting := v |}).

(** ** [class AuthService] *)

Module AuthService.

Definition apiUrl : string := "http://localhost:8080".
Definition tokenKey : string := "jwt_token".
Definition roleKey : string := "user_role".

(** The field initialisers [token = signal(localStorage.getItem(..))]
    and [role = signal(..)] run in declaration order, then the body of
    the constructor logs one line. *)
Definition constructor : M unit :=
  t ← localStorage_getItem tokenKey;
  token_set t;;
  r ← localStorage_getItem roleKey;
  role_set r;;
  console_log ("AuthService inicializado. Backend en: " +:+ apiUrl).

(** [isAuthenticated = computed(() => !!this.token())] *)
Definition isAuthenticated : M bool :=
  t ← token_get;
  mret (truthy t).

(** [login] only builds the request; nothing is sent before
    [subscribe]. *)
Definition login (username password : string) : HttpRequest :=
  {| request_url := apiUrl +:+ "/auth/login";
     request_body := {| username := username; password := password |} |}.

Definition setSession (token role : string) : M unit :=
  localStorage_setItem tokenKey token;;
  localStorage_setItem roleKey role;;
  token_set (Some token);;
  role_set (Some role).

Definition logout : M unit :=
  localStorage_removeItem tokenKey;;
  localStorage_removeItem roleKey;;
  token_set None;;
  role_set None.

End AuthService.

(** ** [class App] *)

Module App.

Definition accessDenied : string :=
  "Acceso denegado. Redirigiendo a login.".

Definition loginFailed : string :=
  "Usuario o contraseña incorrectos. Por favor, inténtalo de nuevo.".

(** [inject(AuthService)] builds the component's own service, then the
    field initialisers of [App] run. *)
Definition constructor : M unit :=
  AuthService.constructor;;
  loginData_set {| username := "admin"; password := "admin123" |};;
  currentPage_set login;;
  errorMsg_set None;;
  isSubmitting_set false.

(** The guard [page === 'dashboard' && !this.authService.isAuthenticated()];
    [&&] reads the service only when the left operand holds. *)
Definition guardRefuses (page : Page) : M bool :=
  if Page_eqb page dashboard
  then auth ← AuthService.isAuthenticated; mret (negb auth)
  else mret false.

Definition navigate (page : Page) : M unit :=
  errorMsg_set None;;
  refused ← guardRefuses page;
  if refused : bool then
    currentPage_set login;;
    console_warn accessDenied
  else
    currentPage_set page;;
    console_log ("Navegando a: " +:+ Page_to_string page).

Definition ngOnInit : M unit :=
  auth ← AuthService.isAuthenticated;
  navigate (if auth : bool then dashboard else login).

(** The [next] callback of the subscription in [onLogin]. *)
Definition onLogin_next (response : AuthResponse) : M unit :=
  AuthService.setSession (response_token response) (response_role response);;
  navigate dashboard;;
  isSubmitting_set false.

(** The [error] callback of the subscription in [onLogin]. *)
Definition onLogin_error (err : HttpError) : M unit :=
  errorMsg_set (Some loginFailed);;
  isSubmitting_set false;;
  AuthService.logout.

(** The synchronous part of [onLogin]: up to and including the
    [subscribe] call. *)
Definition onLogin : M unit :=
  errorMsg_set None;;
  isSubmitting_set true;;
  d ← loginData_get;
  subscribe (AuthService.login (username d) (password d)).

Definition logoutAndNavigate : M unit :=
  AuthService.logout;;
  navigate login.

(** One whole submission: [onLogin], then the callback the outcome of
    the request selects. *)
Definition submission (outcome : LoginOutcome) : M unit :=
  onLogin;;
  match outcome with
  | Succeeded response => onLogin_next response
  | Failed err => onLogin_error err
  end.

(** Angular builds the component and then calls its [ngOnInit]. *)
Definition bootstrap : M unit :=
  constructor;;
  ngOnInit.

End App.

(** ** Sequences of Session Store calls *)

Inductive SessionCall :=
  | SetSession (token role : string)
  | Logout.

Definition call (c : SessionCall) : M unit :=
  match c with
  | SetSession t r => AuthService.setSession t r
  | Logout => AuthService.logout
  end.

Fixpoint calls (cs : list SessionCall) : M unit :=
  match cs with
  | [] => mret tt
  | c :: cs' => call c;; calls cs'
  end.

Definition isSetSession (c : SessionCall) : bool :=
  match c with
  | SetSession _ _ => true
  | Logout => false
  end.

(** The last call of the sequence exists and is a [setSession]. *)
Definition lastIsSetSession (cs : list SessionCall) : bool :=
  from_option isSetSession false (last cs).

(** ** The pairing invariant of the session *)

(** The two signals are both set or both [null]. *)
Definition SessionPaired (w : World) : Prop :=
  is_Some (token w) ↔ is_Some (role w).

(** The two storage keys are both present or both absent. *)
Definition StoragePaired (w : World) : Prop :=
  is_Some (localStorage w !! AuthService.tokenKey) ↔
  is_Some (localStorage w !! AuthService.roleKey).

(** ** Sample worlds *)

(** A fresh browser profile before the page is loaded: nothing stored,
    nothing logged, nothing sent. *)
Definition blank : World :=
  {| localStorage := ∅; console := []; requests := [];
     token := None; role := None;
     loginData := {| username := ""; password := "" |};
     currentPage := login; errorMsg := None; isSubmitting := false |}.

(** The same profile with a token left under [jwt_token] and nothing
    under [user_role]. *)
Definition tokenOnly : World :=
  {| localStorage := {[ AuthService.tokenKey := "T" ]};
     console := []; requests := [];
     token := None; role := None;
     loginData := {| username := ""; password := "" |};
     currentPage := login; errorMsg := None; isSubmitting := false |}.

(** The page after a successful login on a fresh profile. *)
Definition loggedIn : World :=
  exec (App.bootstrap;;
        App.submission
          (Succeeded {| response_token := "T"; response_role := "R" |}))
       blank.

(** ** The template *)

(** What [{{ x }}] prints: nothing for [null]. *)
Definition interpolate (x : option string) : string := default "" x.

(** The right side of the header: the role with the logout button, or
    the text "No autenticado". *)
Inductive Header :=
  | HeaderAuthenticated (roleText : string)
  | HeaderAnonymous.

(** The [@switch (currentPage())] of the main area: the login form with
    its two inputs, the error paragraph when [errorMsg()] is truthy, and
    the submit button; or the dashboard card with the role in it. *)
Inductive Main :=
  | LoginForm (usernameInput passwordInput : string)
              (errorText : option string)
              (submitDisabled : bool) (submitLabel : string)
  | DashboardView (roleText : string).

Record View := {
  header : Header;
  main : Main
}.

Definition template (w : World) : View :=
  {| header :=
       if eval AuthService.isAuthenticated w
       then HeaderAuthenticated (interpolate (role w))
       else HeaderAnonymous;
     main :=
       match currentPage w with
       | login =>
           LoginForm (username (loginData w)) (password (loginData w))
                     (if truthy (errorMsg w) then errorMsg w else None)
                     (isSubmitting w)
                     (if isSubmitting w then "Cargando..." else "Ingresar")
       | dashboard => DashboardView (interpolate (role w))
       end |}.

(** ** The page as the user drives it *)

(** What can happen to the page once it is up: the two [ngModel] inputs
    are typed into, the form is submitted, the logout button is clicked,
    or a request that is in flight completes. *)
Inductive Event :=
  | TypeUsername (text : string)
  | TypePassword (text : string)
  | SubmitForm
  | ClickLogout
  | Respond (outcome : LoginOutcome).

(** The component together with the number of requests sent and not yet
    completed. *)
Record Browser := {
  inflight : nat;
  world : World
}.

Definition loginFormShown (v : View) : bool :=
  match main v with
  | LoginForm _ _ _ _ _ => true
  | DashboardView _ => false
  end.

(** [[disabled]="isSubmitting()"] on the one submit button of the form. *)
Definition submitEnabled (v : View) : bool :=
  match main v with
  | LoginForm _ _ _ disabled _ => negb disabled
  | DashboardView _ => false
  end.

Definition logoutShown (v : View) : bool :=
  match header v with
  | HeaderAuthenticated _ => true
  | HeaderAnonymous => false
  end.

(** An event can fire only on an element the template has rendered; a
    response only while a request is in flight. *)
Definition offered (e : Event) (b : Browser) : bool :=
  match e with
  | TypeUsername _ | TypePassword _ => loginFormShown (template (world b))
  | SubmitForm => submitEnabled (template (world b))
  | ClickLogout => logoutShown (template (world b))
  | Respond _ =>
      match inflight b with
      | O => false
      | S _ => true
      end
  end.

(** The code each event is bound to in the template and in [onLogin]. *)
Definition handler (e : Event) : M unit :=
  match e with
  | TypeUsername text =>
      d ← loginData_get;
      loginData_set {| username := text; password := password d |}
  | TypePassword text =>
      d ← loginData_get;
      loginData_set {| username := username d; password := text |}
  | SubmitForm => App.onLogin
  | ClickLogout => App.logoutAndNavigate
  | Respond (Succeeded response) => App.onLogin_next response
  | Respond (Failed err) => App.onLogin_error err
  end.

Definition inflightAfter (e : Event) (n : nat) : nat :=
  match e with
  | SubmitForm => S n
  | Respond _ => pred n
  | _ => n
  end.

Definition fire (e : Event) (b : Browser) : option Browser :=
  if offered e b
  then Some {| inflight := inflightAfter e (inflight b);
               world := exec (handler e) (world b) |}
  else None.

Fixpoint play (es : list Event) (b : Browser) : option Browser :=
  match es with
  | [] => Some b
  | e :: es' => b' ← fire e b; play es' b'
  end.

(** Loading the page over whatever the browser holds. *)
Definition pageLoad (w : World) : Browser :=
  {| inflight := 0; world := exec App.bootstrap w |}.

(** What every page reached by user events satisfies. *)
Record Coherent (b : Browser) : Prop := {
  coherent_guard :
    currentPage (world b) = dashboard ↔ truthy (token (world b)) = true;
  coherent_inflight :
    inflight b = if isSubmitting (world b) then 1 else 0;
  coherent_submitting :
    isSubmitting (world b) = true → currentPage (world b) = login;
  coherent_token :
    token (world b) = localStorage (world b) !! AuthService.tokenKey;
  coherent_role :
    role (world b) = localStorage (world b) !! AuthService.roleKey;
  coherent_error :
    ∀ msg, errorMsg (world b) = Some msg →
           msg = App.loginFailed ∧ currentPage (world b) = login ∧
           isSubmitting (world b) = false
}.

(** How many times the form was submitted. *)
Fixpoint submissions (es : list Event) : nat :=
  match es with
  | [] => 0
  | SubmitForm :: es' => S (submissions es')
  | _ :: es' => submissions es'
  end.

(** The address every login request goes to. *)
Definition loginUrl : string := "http://localhost:8080/auth/login".

(** A user who fails to log in, corrects the form and gets in. *)
Definition secondTry : list Event :=
  [SubmitForm; Respond (Failed Unauthorized);
   TypePassword "secret"; SubmitForm;
   Respond (Succeeded {| response_token := "T"; response_role := "R" |})].


(** A user whose only attempt is rejected. *)
Definition failedTry : list Event :=
  [TypeUsername "ana"; SubmitForm; Respond (Failed (TransportError 0))].

(** Where a list of events leaves a fresh browser profile. *)
Definition outcomeOf (es : list Event) : Browser :=
  default (pageLoad blank) (play es (pageLoad blank)).

(** * Properties *)

(** ** The monad *)

Lemma exec_bind {A B} (m : M A) (f : A → M B) (w : World) :
  exec (m ≫= f) w = exec (f (eval m w)) (exec m w).
Proof. unfold exec, eval, mbind, M_bind. destruct (m w); reflexivity. Qed.

Lemma eval_bind {A B} (m : M A) (f : A → M B) (w : World) :
  eval (m ≫= f) w = eval (f (eval m w)) (exec m w).
Proof. unfold exec, eval, mbind, M_bind. destruct (m w); reflexivity. Qed.

Lemma truthy_true (x : option string) :
  truthy x = true ↔ ∃ t, x = Some t ∧ t ≠ "".
Proof.
  split.
  - destruct x as [[|a t]|]; simpl; try discriminate.
    intros _. exists (String a t). split; [reflexivity | discriminate].
  - intros (t & -> & Ht). destruct t; [contradiction | reflexivity].
Qed.

Lemma truthy_nonempty (t : string) : t ≠ "" → truthy (Some t) = true.
Proof. intros Ht. apply truthy_true. eauto. Qed.

(** ** What each method does to the world *)

Section Runs.

Variable w : World.

Lemma isAuthenticated_run :
  AuthService.isAuthenticated w = (truthy (token w), w).
Proof. reflexivity. Qed.

Lemma restore_run :
  AuthService.constructor w =
  (tt, {| localStorage := localStorage w;
          console := console w ++
            [(Log, "AuthService inicializado. Backend en: " +:+
                   AuthService.apiUrl)];
          requests := requests w;
          token := localStorage w !! AuthService.tokenKey;
          role := localStorage w !! AuthService.roleKey;
          loginData := loginData w; currentPage := currentPage w;
          errorMsg := errorMsg w; isSubmitting := isSubmitting w |}).
Proof. reflexivity. Qed.

Lemma setSession_run (t r : string) :
  AuthService.setSession t r w =
  (tt, {| localStorage :=
            <[AuthService.roleKey := r]>
              (<[AuthService.tokenKey := t]> (localStorage w));
          console := console w; requests := requests w;
          token := Some t; role := Some r;
          loginData := loginData w; currentPage := currentPage w;
          errorMsg := errorMsg w; isSubmitting := isSubmitting w |}).
Proof. reflexivity. Qed.

Lemma logout_run :
  AuthService.logout w =
  (tt, {| localStorage :=
            delete AuthService.roleKey
              (delete AuthService.tokenKey (localStorage w));
          console := console w; requests := requests w;
          token := None; role := None;
          loginData := loginData w; currentPage := currentPage w;
          errorMsg := errorMsg w; isSubmitting := isSubmitting w |}).
Proof. reflexivity. Qed.

Lemma guardRefuses_run (page : Page) :
  App.guardRefuses page w =
  (Page_eqb page dashboard && negb (truthy (token w)), w).
Proof. destruct page; reflexivity. Qed.

Lemma navigate_run (page : Page) :
  App.navigate page w =
  (tt, {| localStorage := localStorage w;
          console := console w ++
            [if eval (App.guardRefuses page) w
             then (Warn, App.accessDenied)
             else (Log, "Navegando a: " +:+ Page_to_string page)];
          requests := requests w;
          token := token w; role := role w;
          loginData := loginData w;
          currentPage :=
            if eval (App.guardRefuses page) w then login else page;
          errorMsg := None; isSubmitting := isSubmitting w |}).
Proof.
  destruct page; [reflexivity|].
  destruct w as [? ? ? tk ? ? ? ? ?]; destruct tk as [[|]|]; reflexivity.
Qed.

Lemma onLogin_run :
  App.onLogin w =
  (tt, {| localStorage := localStorage w; console := console w;
          requests := requests w ++
            [AuthService.login (username (loginData w))
                               (password (loginData w))];
          token := token w; role := role w;
          loginData := loginData w; currentPage := currentPage w;
          errorMsg := None; isSubmitting := true |}).
Proof. reflexivity. Qed.

Lemma onLogin_error_run (err : HttpError) :
  App.onLogin_error err w =
  (tt, {| localStorage :=
            delete AuthService.roleKey
              (delete AuthService.tokenKey (localStorage w));
          console := console w; requests := requests w;
          token := None; role := None;
          loginData := loginData w; currentPage := currentPage w;
          errorMsg := Some App.loginFailed; isSubmitting := false |}).
Proof. reflexivity. Qed.

Lemma onLogin_next_run (response : AuthResponse) :
  App.onLogin_next response w =
  (tt, {| localStorage :=
            <[AuthService.roleKey := response_role response]>
              (<[AuthService.tokenKey := response_token response]>
                 (localStorage w));
          console := console w ++
            [if truthy (Some (response_token response))
             then (Log, "Navegando a: dashboard")
             else (Warn, App.accessDenied)];
          requests := requests w;
          token := Some (response_token response);
          role := Some (response_role response);
          loginData := loginData w;
          currentPage :=
            if truthy (Some (response_token response))
            then dashboard else login;
          errorMsg := None; isSubmitting := false |}).
Proof. destruct response as [[|] ?]; reflexivity. Qed.

Lemma constructor_run :
  App.constructor w =
  (tt, {| localStorage := localStorage w;
          console := console w ++
            [(Log, "AuthService inicializado. Backend en: " +:+
                   AuthService.apiUrl)];
          requests := requests w;
          token := localStorage w !! AuthService.tokenKey;
          role := localStorage w !! AuthService.roleKey;
          loginData := {| username := "admin"; password := "admin123" |};
          currentPage := login;
          errorMsg := None; isSubmitting := false |}).
Proof. reflexivity. Qed.

Lemma ngOnInit_run :
  App.ngOnInit w =
  App.navigate (if truthy (token w) then dashboard else login) w.
Proof. reflexivity. Qed.

End Runs.

Lemma bind_run {A B} (m : M A) (f : A → M B) (w w' : World) (x : A) :
  m w = (x, w') → (m ≫= f) w = f x w'.
Proof. unfold mbind, M_bind. intros ->. reflexivity. Qed.

(** On the way out of [ngOnInit] the guard never fires: the target is
    [dashboard] only when the service reports authenticated. *)
Lemma bootstrap_run (w : World) :
  App.bootstrap w =
  (tt, {| localStorage := localStorage w;
          console := console w ++
            [(Log, "AuthService inicializado. Backend en: " +:+
                   AuthService.apiUrl);
             (Log, "Navegando a: " +:+ Page_to_string
                (if truthy (localStorage w !! AuthService.tokenKey)
                 then dashboard else login))];
          requests := requests w;
          token := localStorage w !! AuthService.tokenKey;
          role := localStorage w !! AuthService.roleKey;
          loginData := {| username := "admin"; password := "admin123" |};
          currentPage :=
            if truthy (localStorage w !! AuthService.tokenKey)
            then dashboard else login;
          errorMsg := None; isSubmitting := false |}).
Proof.
  unfold App.bootstrap.
  rewrite (bind_run _ _ _ _ _ (constructor_run w)).
  rewrite ngOnInit_run, navigate_run. unfold eval.
  rewrite guardRefuses_run. cbn [token localStorage console requests role
    loginData currentPage errorMsg isSubmitting fst snd].
  rewrite <- app_assoc.
  destruct (truthy (localStorage w !! AuthService.tokenKey)); reflexivity.
Qed.

Lemma submission_exec (outcome : LoginOutcome) (w : World) :
  exec (App.submission outcome) w =
  match outcome with
  | Succeeded response => exec (App.onLogin_next response) (exec App.onLogin w)
  | Failed err => exec (App.onLogin_error err) (exec App.onLogin w)
  end.
Proof. unfold App.submission. rewrite exec_bind. destruct outcome; reflexivity. Qed.

Lemma calls_snoc (cs : list SessionCall) (c : SessionCall) (w : World) :
  exec (calls (cs ++ [c])) w = exec (call c) (exec (calls cs) w).
Proof.
  revert w. induction cs as [|c' cs IH]; intros w; simpl.
  - rewrite exec_bind. reflexivity.
  - rewrite !exec_bind. apply IH.
Qed.

(** Whatever the state before, a Session Store call leaves the signals
    paired and the two storage keys paired. *)
Lemma call_pairs (c : SessionCall) (w : World) :
  SessionPaired (exec (call c) w) ∧ StoragePaired (exec (call c) w).
Proof.
  destruct c as [t r|]; unfold SessionPaired, StoragePaired, exec, call.
  - rewrite setSession_run.
    cbn [snd token role localStorage].
    rewrite lookup_insert_eq, lookup_insert_ne, lookup_insert_eq by done.
    split; split; eauto.
  - rewrite logout_run.
    cbn [snd token role localStorage].
    rewrite lookup_delete_eq, lookup_delete_ne, lookup_delete_eq by done.
    split; reflexivity.
Qed.

(** A Session Store call touches nothing the view controller owns, and
    neither the console nor the outbound requests. *)
Lemma call_frame (c : SessionCall) (w : World) :
  let w' := exec (call c) w in
  currentPage w' = currentPage w ∧ errorMsg w' = errorMsg w ∧
  isSubmitting w' = isSubmitting w ∧ loginData w' = loginData w ∧
  console w' = console w ∧ requests w' = requests w.
Proof. destruct c; repeat split. Qed.

Lemma calls_pair (cs : list SessionCall) (w : World) :
  SessionPaired w → StoragePaired w →
  SessionPaired (exec (calls cs) w) ∧ StoragePaired (exec (calls cs) w).
Proof.
  intros Hs Hst. induction cs as [|c cs _] using rev_ind.
  - split; assumption.
  - rewrite calls_snoc. apply call_pairs.
Qed.

(** The [error] callback, from any state at all: the request may
    complete long after it was sent. *)
Lemma onLogin_error_effect (err : HttpError) (w : World) :
  let w' := exec (App.onLogin_error err) w in
  errorMsg w' = Some App.loginFailed ∧ isSubmitting w' = false ∧
  token w' = None ∧ role w' = None ∧
  localStorage w' !! AuthService.tokenKey = None ∧
  localStorage w' !! AuthService.roleKey = None ∧
  currentPage w' = currentPage w.
Proof.
  intros w'. subst w'. unfold exec. rewrite onLogin_error_run.
  cbn [snd errorMsg isSubmitting token role localStorage currentPage].
  rewrite lookup_delete_eq, lookup_delete_ne, lookup_delete_eq by done.
  repeat split.
Qed.

(** The [next] callback, from any state at all. *)
Lemma onLogin_next_effect (response : AuthResponse) (w : World) :
  let w' := exec (App.onLogin_next response) w in
  localStorage w' !! AuthService.tokenKey = Some (response_token response) ∧
  localStorage w' !! AuthService.roleKey = Some (response_role response) ∧
  token w' = Some (response_token response) ∧
  role w' = Some (response_role response) ∧
  currentPage w' =
    (if truthy (Some (response_token response)) then dashboard else login) ∧
  last (console w') =
    Some (if truthy (Some (response_token response))
          then (Log, "Navegando a: dashboard")
          else (Warn, App.accessDenied)) ∧
  errorMsg w' = None ∧ isSubmitting w' = false.
Proof.
  intros w'. subst w'. unfold exec. rewrite onLogin_next_run.
  cbn [snd errorMsg isSubmitting token role localStorage currentPage console].
  rewrite lookup_insert_eq, lookup_insert_ne, lookup_insert_eq by done.
  rewrite last_snoc. repeat split.
Qed.

(** [logoutAndNavigate()] from any state: not authenticated, on
    ['login'], nothing left in storage under the two keys. *)
Lemma logoutAndNavigate_effect (w : World) :
  let w' := exec App.logoutAndNavigate w in
  eval AuthService.isAuthenticated w' = false ∧
  currentPage w' = login ∧
  localStorage w' !! AuthService.tokenKey = None ∧
  localStorage w' !! AuthService.roleKey = None.
Proof.
  intros w'. subst w'. unfold App.logoutAndNavigate.
  rewrite exec_bind. unfold exec, eval.
  rewrite navigate_run, logout_run, isAuthenticated_run.
  cbn [fst snd token currentPage localStorage].
  rewrite lookup_delete_eq, lookup_delete_ne, lookup_delete_eq by done.
  repeat split.
Qed.

(** The empty sequence of calls changes nothing, so it leaves
    [isAuthenticated()] at whatever it was. *)
Lemma calls_nil (w : World) : exec (calls []) w = w.
Proof. reflexivity. Qed.

(** ** Concrete runs *)

Example bootstrap_blank :
  currentPage (exec App.bootstrap blank) = login ∧
  console (exec App.bootstrap blank) =
    [(Log, "AuthService inicializado. Backend en: http://localhost:8080");
     (Log, "Navegando a: login")].
Proof. split; reflexivity. Qed.

Example bootstrap_tokenOnly :
  currentPage (exec App.bootstrap tokenOnly) = dashboard.
Proof. reflexivity. Qed.

Example loggedIn_run :
  currentPage loggedIn = dashboard ∧ role loggedIn = Some "R" ∧
  localStorage loggedIn !! AuthService.tokenKey = Some "T" ∧
  requests loggedIn =
    [{| request_url := "http://localhost:8080/auth/login";
        request_body := {| username := "admin"; password := "admin123" |} |}].
Proof. repeat split. Qed.

Example stale_failure_on_dashboard :
  currentPage (exec (App.onLogin_error Unauthorized) loggedIn) = dashboard ∧
  eval AuthService.isAuthenticated
    (exec (App.onLogin_error Unauthorized) loggedIn) = false.
Proof. split; reflexivity. Qed.

(** ** The claims *)

(** C1. [navigate('dashboard')] while the Session Store is not
    authenticated returns normally, leaves [currentPage] at ['login'],
    adds one warning with a non-empty text to the console, and changes
    neither signal of the session nor the storage.  ([navigate] is a total
    function of the world: the source has no [throw] on this path.) *)
Theorem navigate_dashboard_refused (w : World) :
  eval AuthService.isAuthenticated w = false →
  let w' := exec (App.navigate dashboard) w in
  App.navigate dashboard w = (tt, w') ∧
  currentPage w' = login ∧
  (∃ msg, msg ≠ "" ∧ console w' = console w ++ [(Warn, msg)]) ∧
  token w' = token w ∧ role w' = role w ∧
  localStorage w' = localStorage w.
Proof.
  intros Hauth w'. subst w'. unfold exec, eval in *.
  rewrite isAuthenticated_run in Hauth. cbn [fst] in Hauth.
  rewrite navigate_run. unfold eval. rewrite guardRefuses_run.
  cbn [fst snd currentPage console token role localStorage].
  rewrite Hauth. cbn [Page_eqb negb andb].
  split; [reflexivity|]. split; [reflexivity|].
  split; [|repeat split].
  exists App.accessDenied. split; [discriminate | reflexivity].
Qed.

Lemma navigate_dashboard_refused_witness :
  eval AuthService.isAuthenticated blank = false ∧
  currentPage (exec (App.navigate dashboard) blank) = login.
Proof.
  split; [reflexivity|].
  exact (proj1 (proj2 (navigate_dashboard_refused blank eq_refl))).
Defined.

(** C2, as the spec states it, fails: a sequence whose last call is
    [setSession] with the empty string as token leaves the store not
    authenticated. *)
Lemma setSession_last_not_authenticated :
  ¬ (eval AuthService.isAuthenticated
       (exec (calls [Logout; SetSession "" "admin"]) blank) = true
     ↔ lastIsSetSession [Logout; SetSession "" "admin"] = true).
Proof. intros [_ H]. specialize (H eq_refl). vm_compute in H. discriminate H. Qed.

(** C2, amended. After every non-empty sequence of [setSession] and
    [logout] calls, from any state, [isAuthenticated()] is true exactly
    when the last call was a [setSession] whose token is not the empty
    string. *)
Theorem isAuthenticated_after_calls (cs : list SessionCall) (w : World) :
  cs ≠ [] →
  (eval AuthService.isAuthenticated (exec (calls cs) w) = true ↔
   ∃ t r, last cs = Some (SetSession t r) ∧ t ≠ "").
Proof.
  intros Hne. destruct cs as [|c cs _] using rev_ind; [done|].
  rewrite calls_snoc, last_snoc. destruct c as [t r|].
  - unfold eval, exec, call. rewrite setSession_run, isAuthenticated_run.
    cbn [fst snd token]. rewrite truthy_true. split.
    + intros (t' & [= <-] & Ht). eauto.
    + intros (t' & r' & [= <- <-] & Ht). eauto.
  - split; [discriminate|]. intros (? & ? & [=] & _).
Qed.

Lemma isAuthenticated_after_calls_witness :
  [Logout; SetSession "T" "R"] ≠ [] ∧
  (eval AuthService.isAuthenticated
     (exec (calls [Logout; SetSession "T" "R"]) blank) = true ↔
   ∃ t r, last [Logout; SetSession "T" "R"] = Some (SetSession t r) ∧ t ≠ "").
Proof.
  split; [discriminate|].
  apply (isAuthenticated_after_calls [Logout; SetSession "T" "R"] blank).
  discriminate.
Defined.

(** C3, as the spec states it, fails: nothing is validated, a call with
    the empty string as token writes storage and signals all the same. *)
Lemma setSession_empty_token_written :
  let w' := exec (AuthService.setSession "" "admin") blank in
  localStorage w' !! AuthService.tokenKey = Some "" ∧
  localStorage w' !! AuthService.roleKey = Some "admin" ∧
  token w' = Some "" ∧ role w' = Some "admin" ∧
  w' ≠ blank.
Proof. vm_compute. repeat split. discriminate. Qed.

(** C3, amended. [setSession(token, role)] validates nothing: every
    call, and so every call with both arguments non-empty, writes both
    to persistent storage and to the signals; afterwards
    [isAuthenticated()] is true exactly when the token is not the empty
    string. *)
Theorem setSession_writes (t r : string) (w : World) :
  let w' := exec (AuthService.setSession t r) w in
  localStorage w' !! AuthService.tokenKey = Some t ∧
  localStorage w' !! AuthService.roleKey = Some r ∧
  token w' = Some t ∧ role w' = Some r ∧
  (eval AuthService.isAuthenticated w' = true ↔ t ≠ "").
Proof.
  intros w'. subst w'. unfold exec, eval.
  rewrite setSession_run, isAuthenticated_run.
  cbn [fst snd token role localStorage].
  rewrite lookup_insert_eq, lookup_insert_ne, lookup_insert_eq by done.
  repeat split.
  - intros H%truthy_true. destruct H as (t' & [= <-] & Ht). exact Ht.
  - apply truthy_nonempty.
Qed.

(** C4, as the spec states it, fails on the text of the message: the
    handler sets a Spanish sentence, not "invalid username or password". *)
Lemma failed_login_message_differs :
  errorMsg (exec (App.submission (Failed Unauthorized)) blank) ≠
  Some "invalid username or password".
Proof. vm_compute. discriminate. Qed.

(** C4, amended. From every state and for every error, a login
    submission that fails sets the error message to the fixed text of
    the source, leaves [isSubmitting] false, clears the session by
    [logout()] whatever it was (signals and both storage keys, so the
    store is not authenticated), and leaves [currentPage] as it was:
    ['login'] stays ['login']. *)
Theorem failed_login (err : HttpError) (w : World) :
  let w' := exec (App.submission (Failed err)) w in
  errorMsg w' =
    Some "Usuario o contraseña incorrectos. Por favor, inténtalo de nuevo." ∧
  isSubmitting w' = false ∧
  token w' = None ∧ role w' = None ∧
  localStorage w' !! AuthService.tokenKey = None ∧
  localStorage w' !! AuthService.roleKey = None ∧
  eval AuthService.isAuthenticated w' = false ∧
  currentPage w' = currentPage w.
Proof.
  intros w'. subst w'. rewrite submission_exec.
  destruct (onLogin_error_effect err (exec App.onLogin w))
    as (Hmsg & Hsub & Htok & Hrole & Hst & Hsr & Hpage).
  assert (Hauth : eval AuthService.isAuthenticated
                    (exec (App.onLogin_error err) (exec App.onLogin w)) = false).
  { unfold eval. rewrite isAuthenticated_run. cbn [fst]. rewrite Htok. reflexivity. }
  rewrite Hpage. tauto.
Qed.

(** C5. From every state, a login submission that succeeds with a
    non-empty token [T] and a role [R] ends authenticated, with
    [role() == R], on ['dashboard'], with no error message and
    [isSubmitting] false.  (That [R] is non-empty is not needed.) *)
Theorem successful_login (T R : string) (w : World) :
  T ≠ "" →
  let w' := exec (App.submission
                    (Succeeded {| response_token := T;
                                  response_role := R |})) w in
  eval AuthService.isAuthenticated w' = true ∧
  eval role_get w' = Some R ∧
  currentPage w' = dashboard ∧
  errorMsg w' = None ∧
  isSubmitting w' = false.
Proof.
  intros HT w'. subst w'. rewrite submission_exec.
  destruct (onLogin_next_effect
              {| response_token := T; response_role := R |}
              (exec App.onLogin w))
    as (_ & _ & Htok & Hrole & Hpage & _ & Hmsg & Hsub).
  cbn [response_token response_role] in *.
  rewrite (truthy_nonempty T HT) in Hpage.
  assert (Hauth : eval AuthService.isAuthenticated
                    (exec (App.onLogin_next
                             {| response_token := T; response_role := R |})
                          (exec App.onLogin w)) = true).
  { unfold eval. rewrite isAuthenticated_run. cbn [fst].
    rewrite Htok. apply truthy_nonempty, HT. }
  tauto.
Qed.

Lemma successful_login_witness :
  "T" ≠ "" ∧
  let w' := exec (App.submission
                    (Succeeded {| response_token := "T";
                                  response_role := "R" |})) blank in
  eval AuthService.isAuthenticated w' = true ∧
  eval role_get w' = Some "R" ∧
  currentPage w' = dashboard ∧
  errorMsg w' = None ∧
  isSubmitting w' = false.
Proof.
  split; [discriminate|].
  apply (successful_login "T" "R" blank). discriminate.
Defined.

(** C6, as the spec states it, fails at startup: restoring from a
    storage that holds [jwt_token] and no [user_role] leaves the token
    set and the role unset. *)
Lemma restore_token_without_role :
  let w' := exec AuthService.constructor tokenOnly in
  token w' = Some "T" ∧ role w' = None ∧ ¬ SessionPaired w'.
Proof.
  split; [reflexivity|]. split; [reflexivity|].
  intros [H _]. destruct H as [r Hr]; [eexists; reflexivity|].
  vm_compute in Hr. discriminate Hr.
Qed.

(** C6, amended. When persistent storage holds both keys or neither
    (an empty storage, or one last written by [setSession] or
    [logout]), the token is set iff the role is set after the restore at
    startup, and after every sequence of [setSession] and [logout] calls
    that follows; those calls also leave the two storage keys paired, and
    each of them preserves the pairing of the signals from any state. *)
Theorem session_pairing (w : World) :
  StoragePaired w →
  let w0 := exec AuthService.constructor w in
  SessionPaired w0 ∧
  (∀ cs, SessionPaired (exec (calls cs) w0) ∧
         StoragePaired (exec (calls cs) w0)) ∧
  (∀ c w1, SessionPaired w1 → SessionPaired (exec (call c) w1)).
Proof.
  intros Hst w0.
  assert (Hs : SessionPaired w0) by exact Hst.
  split; [exact Hs|]. split.
  - intros cs. apply calls_pair; [exact Hs | exact Hst].
  - intros c w1 _. apply call_pairs.
Qed.

Lemma session_pairing_witness :
  StoragePaired blank ∧ SessionPaired (exec AuthService.constructor blank).
Proof.
  assert (H : StoragePaired blank) by (split; intros [x Hx]; discriminate Hx).
  split; [exact H|].
  exact (proj1 (session_pairing blank H)).
Defined.

(** C7, as the spec states it, fails: after [setSession] with the empty
    string the token is set (it is not [null]) and [isAuthenticated()]
    is false. *)
Lemma token_set_not_authenticated :
  let w := exec (AuthService.setSession "" "admin") blank in
  ¬ (eval AuthService.isAuthenticated w = true ↔ is_Some (token w)).
Proof.
  intros w [_ H]. assert (Hs : is_Some (token w)) by (eexists; reflexivity).
  specialize (H Hs). vm_compute in H. discriminate H.
Qed.

(** C7, amended. [isAuthenticated()] is true iff a token is set and is
    not the empty string; its value is [!!token], a function of the
    token alone, and reading it leaves the world as it was. *)
Theorem isAuthenticated_token (w : World) :
  (eval AuthService.isAuthenticated w = true ↔
   ∃ t, token w = Some t ∧ t ≠ "") ∧
  eval AuthService.isAuthenticated w = truthy (token w) ∧
  exec AuthService.isAuthenticated w = w.
Proof.
  unfold eval, exec. rewrite isAuthenticated_run. cbn [fst snd].
  split; [apply truthy_true|]. split; reflexivity.
Qed.

(** C8. At startup the constructor restores token and role from
    persistent storage and [ngOnInit] sets the page at once: the world
    [bootstrap] returns is on ['dashboard'] if the Session Store reports
    authenticated, which is when the persisted token is truthy, and on
    ['login'] otherwise. *)
Theorem initial_page (w : World) :
  let w' := exec App.bootstrap w in
  token w' = localStorage w !! AuthService.tokenKey ∧
  role w' = localStorage w !! AuthService.roleKey ∧
  currentPage w' =
    (if eval AuthService.isAuthenticated w' then dashboard else login) ∧
  eval AuthService.isAuthenticated w' =
    truthy (localStorage w !! AuthService.tokenKey).
Proof.
  intros w'. subst w'. unfold exec, eval. rewrite bootstrap_run.
  rewrite isAuthenticated_run. cbn [fst snd token role currentPage].
  repeat split.
Qed.

(** C9. [logout()] while [currentPage] is ['dashboard'] leaves it at
    ['dashboard']; every Session Store call leaves page, error message,
    submitting flag and form data as they were; only the next
    [navigate('dashboard')] puts the page back to ['login']. *)
Theorem logout_keeps_page (w : World) :
  currentPage w = dashboard →
  let w' := exec AuthService.logout w in
  currentPage w' = dashboard ∧
  eval AuthService.isAuthenticated w' = false ∧
  (∀ c, currentPage (exec (call c) w) = currentPage w ∧
        errorMsg (exec (call c) w) = errorMsg w ∧
        isSubmitting (exec (call c) w) = isSubmitting w ∧
        loginData (exec (call c) w) = loginData w) ∧
  currentPage (exec (App.navigate dashboard) w') = login.
Proof.
  intros Hpage w'. subst w'. split; [exact Hpage|].
  split; [reflexivity|]. split.
  - intros c. destruct (call_frame c w) as (H1 & H2 & H3 & H4 & _).
    repeat split; assumption.
  - reflexivity.
Qed.

Lemma logout_keeps_page_witness :
  currentPage loggedIn = dashboard ∧
  currentPage (exec AuthService.logout loggedIn) = dashboard.
Proof.
  assert (H : currentPage loggedIn = dashboard) by reflexivity.
  split; [exact H|].
  exact (proj1 (logout_keeps_page loggedIn H)).
Defined.

(** C10. From every state, a login submission that succeeds with the
    empty string as token still writes both fields to storage and to the
    signals through [setSession]; [isAuthenticated()] is false, the guard
    refuses [navigate('dashboard')] (its warning is the last console
    line), and the app ends on ['login'], not authenticated, with no
    error message and [isSubmitting] false. *)
Theorem empty_token_login (R : string) (w : World) :
  let w' := exec (App.submission
                    (Succeeded {| response_token := "";
                                  response_role := R |})) w in
  localStorage w' !! AuthService.tokenKey = Some "" ∧
  localStorage w' !! AuthService.roleKey = Some R ∧
  token w' = Some "" ∧ role w' = Some R ∧
  eval AuthService.isAuthenticated w' = false ∧
  last (console w') = Some (Warn, App.accessDenied) ∧
  currentPage w' = login ∧
  errorMsg w' = None ∧
  isSubmitting w' = false.
Proof.
  intros w'. subst w'. rewrite submission_exec.
  destruct (onLogin_next_effect
              {| response_token := ""; response_role := R |}
              (exec App.onLogin w))
    as (Hst & Hsr & Htok & Hrole & Hpage & Hlog & Hmsg & Hsub).
  cbn [response_token response_role truthy] in *.
  assert (Hauth : eval AuthService.isAuthenticated
                    (exec (App.onLogin_next
                             {| response_token := ""; response_role := R |})
                          (exec App.onLogin w)) = false).
  { unfold eval. rewrite isAuthenticated_run. cbn [fst].
    rewrite Htok. reflexivity. }
  tauto.
Qed.

(** * Further properties *)

(** ** How Session Store calls compose *)

Lemma call_absorbs (c c' : SessionCall) (w : World) :
  exec (call c) (exec (call c') w) = exec (call c) w.
Proof.
  destruct c as [t r|], c' as [t' r'|]; unfold exec, call;
    rewrite ?setSession_run, ?logout_run;
    cbn [snd localStorage console requests token role loginData
         currentPage errorMsg isSubmitting];
    f_equal; apply map_eq; intros k;
    repeat first [rewrite lookup_insert | rewrite lookup_delete | case_decide];
    reflexivity.
Qed.

(** ** What the template offers *)

Lemma loginFormShown_page (w : World) :
  loginFormShown (template w) = true ↔ currentPage w = login.
Proof.
  unfold loginFormShown, template. cbn [main].
  destruct (currentPage w); split; intros H; done.
Qed.

Lemma submitEnabled_page (w : World) :
  submitEnabled (template w) = true ↔
  currentPage w = login ∧ isSubmitting w = false.
Proof.
  unfold submitEnabled, template. cbn [main].
  destruct (currentPage w), (isSubmitting w); cbn; split;
    first [intros [? ?]; done | intros ?; done].
Qed.

Lemma logoutShown_authenticated (w : World) :
  logoutShown (template w) = true ↔ truthy (token w) = true.
Proof.
  unfold logoutShown, template, eval. rewrite isAuthenticated_run.
  cbn [header fst]. destruct (truthy (token w)); split; intros H; done.
Qed.

(** ** What each event does *)

Lemma logoutAndNavigate_run (w : World) :
  App.logoutAndNavigate w =
  (tt, {| localStorage :=
            delete AuthService.roleKey
              (delete AuthService.tokenKey (localStorage w));
          console := console w ++ [(Log, "Navegando a: login")];
          requests := requests w;
          token := None; role := None;
          loginData := loginData w; currentPage := login;
          errorMsg := None; isSubmitting := isSubmitting w |}).
Proof. reflexivity. Qed.

Lemma fire_coherent (e : Event) (b b' : Browser) :
  Coherent b → fire e b = Some b' → Coherent b'.
Proof.
  intros [Hguard Hfl Hsub Htok Hrole Herr]. unfold fire.
  destruct (offered e b) eqn:Hoff; [|discriminate]. intros [= <-].
  destruct b as [n w]. cbn [world inflight] in *.
  destruct e as [text|text| | |[response|err]]; cbn [offered world inflight] in Hoff;
    cbn [handler inflightAfter].
  - (* typing into the username input *)
    constructor; cbn [world inflight]; assumption.
  - constructor; cbn [world inflight]; assumption.
  - (* submitting the form *)
    apply submitEnabled_page in Hoff as [Hpage Hidle].
    unfold exec. rewrite onLogin_run.
    constructor; cbn [world inflight snd currentPage token role localStorage
                      isSubmitting errorMsg]; try assumption.
    + rewrite Hfl, Hidle. reflexivity.
    + intros _. exact Hpage.
    + discriminate.
  - (* clicking the logout button *)
    apply logoutShown_authenticated in Hoff.
    assert (Hidle : isSubmitting w = false).
    { destruct (isSubmitting w); [|reflexivity].
      apply Hguard in Hoff. rewrite Hsub in Hoff by reflexivity. discriminate. }
    unfold exec. rewrite logoutAndNavigate_run.
    constructor; cbn [world inflight snd currentPage token role localStorage
                      isSubmitting errorMsg truthy]; try assumption.
    + split; discriminate.
    + rewrite Hidle. discriminate.
    + rewrite lookup_delete_ne, lookup_delete_eq by done. reflexivity.
    + rewrite lookup_delete_eq. reflexivity.
    + discriminate.
  - (* the request succeeds *)
    destruct n as [|n]; [discriminate|].
    destruct (isSubmitting w) eqn:Hbusy; [|discriminate].
    injection Hfl as ->.
    unfold exec. rewrite onLogin_next_run.
    constructor; cbn [world inflight snd currentPage token role localStorage
                      isSubmitting errorMsg pred].
    + destruct (truthy (Some (response_token response))); split; done.
    + reflexivity.
    + discriminate.
    + rewrite lookup_insert_ne, lookup_insert_eq by done. reflexivity.
    + rewrite lookup_insert_eq. reflexivity.
    + discriminate.
  - (* the request fails *)
    destruct n as [|n]; [discriminate|].
    destruct (isSubmitting w) eqn:Hbusy; [|discriminate].
    injection Hfl as ->.
    unfold exec. rewrite onLogin_error_run.
    constructor; cbn [world inflight snd currentPage token role localStorage
                      isSubmitting errorMsg pred truthy].
    + rewrite Hsub by reflexivity. split; discriminate.
    + reflexivity.
    + discriminate.
    + rewrite lookup_delete_ne, lookup_delete_eq by done. reflexivity.
    + rewrite lookup_delete_eq. reflexivity.
    + intros msg [= <-]. rewrite Hsub by reflexivity. repeat split.
Qed.

Lemma pageLoad_coherent (w : World) : Coherent (pageLoad w).
Proof.
  unfold pageLoad, exec. rewrite bootstrap_run.
  constructor; cbn [world inflight snd currentPage token role localStorage
                    isSubmitting errorMsg]; try reflexivity; try discriminate.
  destruct (truthy (localStorage w !! AuthService.tokenKey)); split; done.
Qed.

Lemma play_coherent (es : list Event) (b b' : Browser) :
  Coherent b → play es b = Some b' → Coherent b'.
Proof.
  revert b. induction es as [|e es IH]; intros b Hb; cbn [play].
  - intros [= <-]. exact Hb.
  - destruct (fire e b) as [b1|] eqn:Hfire; [|discriminate].
    cbn. apply IH. exact (fire_coherent e b b1 Hb Hfire).
Qed.

Lemma fire_other_keys (e : Event) (b b' : Browser) (k : string) :
  k ≠ AuthService.tokenKey → k ≠ AuthService.roleKey →
  fire e b = Some b' →
  localStorage (world b') !! k = localStorage (world b) !! k.
Proof.
  intros Ht Hr. unfold fire. destruct (offered e b); [|discriminate].
  intros [= <-]. cbn [world].
  destruct e as [text|text| | |[response|err]]; cbn [handler]; unfold exec;
    rewrite ?onLogin_run, ?logoutAndNavigate_run, ?onLogin_next_run,
            ?onLogin_error_run;
    cbn [snd localStorage];
    rewrite ?lookup_insert_ne, ?lookup_delete_ne by done; reflexivity.
Qed.

Lemma fire_requests (e : Event) (b b' : Browser) :
  fire e b = Some b' →
  ∃ sent, requests (world b') = requests (world b) ++ sent ∧
          length sent = submissions [e] ∧
          Forall (λ req, request_url req = loginUrl) sent.
Proof.
  unfold fire. destruct (offered e b); [|discriminate].
  intros [= <-]. cbn [world].
  destruct e as [text|text| | |[response|err]]; cbn [handler submissions];
    unfold exec;
    rewrite ?onLogin_run, ?logoutAndNavigate_run, ?onLogin_next_run,
            ?onLogin_error_run;
    cbn [snd requests].
  3: { eexists. split; [reflexivity|]. split; [reflexivity|].
       constructor; [reflexivity | constructor]. }
  all: exists []; rewrite app_nil_r; repeat split; constructor.
Qed.

Lemma submissions_cons (e : Event) (es : list Event) :
  submissions (e :: es) = submissions [e] + submissions es.
Proof. destruct e; reflexivity. Qed.

(** ** Session Store calls *)

(** X1. Only the last call of a sequence of [setSession] and [logout]
    calls matters: the world after the sequence is the world after its
    last call alone. *)
Theorem last_call_decides (cs : list SessionCall) (c : SessionCall) (w : World) :
  exec (calls (cs ++ [c])) w = exec (call c) w.
Proof.
  rewrite calls_snoc.
  induction cs as [|c' cs IH] using rev_ind; [reflexivity|].
  rewrite calls_snoc, call_absorbs. exact IH.
Qed.

(** X2. Reloading the page after a sequence of Session Store calls, made
    from any state, restores the token and the role the last call left
    and writes nothing; the page comes up on ['dashboard'] exactly when
    the store was authenticated. *)
Theorem reload_after_calls (cs : list SessionCall) (c : SessionCall) (w : World) :
  let w1 := exec (calls (cs ++ [c])) w in
  let w2 := exec App.bootstrap w1 in
  token w2 = token w1 ∧ role w2 = role w1 ∧
  localStorage w2 = localStorage w1 ∧
  (currentPage w2 = dashboard ↔
   eval AuthService.isAuthenticated w1 = true).
Proof.
  intros w1 w2. subst w2 w1. rewrite calls_snoc.
  generalize (exec (calls cs) w). clear w. intros w.
  unfold exec, eval. rewrite bootstrap_run, isAuthenticated_run.
  cbn [fst snd token role localStorage currentPage].
  destruct c as [t r|]; unfold call.
  - rewrite setSession_run. cbn [snd token role localStorage].
    rewrite lookup_insert_ne, !lookup_insert_eq by done.
    repeat split; destruct (truthy (Some t)); done.
  - rewrite logout_run. cbn [snd token role localStorage truthy].
    rewrite lookup_delete_ne, !lookup_delete_eq by done.
    repeat split; done.
Qed.

(** ** Navigation *)

(** X3. [navigate(page)] from any state ends on ['dashboard'] exactly
    when that was the target and the store is authenticated, and on
    ['login'] otherwise; it always clears the error message and adds
    one console line, a warning exactly when the guard refused; session,
    storage, submitting flag, form data and requests stay as they were. *)
Theorem navigate_lands (page : Page) (w : World) :
  let w' := exec (App.navigate page) w in
  (currentPage w' = dashboard ↔
   page = dashboard ∧ eval AuthService.isAuthenticated w = true) ∧
  (currentPage w' = login ↔
   page = login ∨ eval AuthService.isAuthenticated w = false) ∧
  errorMsg w' = None ∧
  (∃ level msg, console w' = console w ++ [(level, msg)] ∧
     (level = Warn ↔
      page = dashboard ∧ eval AuthService.isAuthenticated w = false)) ∧
  token w' = token w ∧ role w' = role w ∧
  localStorage w' = localStorage w ∧
  isSubmitting w' = isSubmitting w ∧ loginData w' = loginData w ∧
  requests w' = requests w.
Proof.
  intros w'. subst w'. unfold exec, eval.
  rewrite navigate_run, isAuthenticated_run. unfold eval.
  rewrite guardRefuses_run.
  cbn [fst snd currentPage errorMsg console token role localStorage
       isSubmitting loginData requests].
  destruct page, (truthy (token w)); cbn [Page_eqb andb negb];
    (split; [split; [try discriminate; auto | intros [? ?]; done]|]);
    (split; [split; [try discriminate; auto | intros [?|?]; done]|]);
    (split; [reflexivity|]);
    (split; [|repeat split]);
    do 2 eexists; (split; [reflexivity|]);
    (split; [try discriminate; auto | intros [? ?]; done]).
Qed.

(** X4. Loading the page never trips the guard: whatever the browser
    holds, the constructor and [ngOnInit] add exactly two console lines,
    both plain logs, the second naming the page the app came up on; they
    write nothing to storage, send no request, and put the form back to
    its defaults with no error shown and nothing submitting. *)
Theorem bootstrap_quiet (w : World) :
  let w' := exec App.bootstrap w in
  console w' =
    console w ++
    [(Log, "AuthService inicializado. Backend en: http://localhost:8080");
     (Log, "Navegando a: " +:+ Page_to_string (currentPage w'))] ∧
  localStorage w' = localStorage w ∧
  requests w' = requests w ∧
  loginData w' = {| username := "admin"; password := "admin123" |} ∧
  errorMsg w' = None ∧ isSubmitting w' = false.
Proof.
  intros w'. subst w'. unfold exec. rewrite bootstrap_run.
  cbn [snd console localStorage requests loginData errorMsg isSubmitting
       currentPage].
  repeat split.
Qed.

(** X5. No sequence of [setSession] and [logout] calls reads or writes a
    storage key other than [jwt_token] and [user_role]: every other key
    holds afterwards what it held before. *)
Theorem session_calls_keep_other_keys
    (cs : list SessionCall) (k : string) (w : World) :
  k ≠ AuthService.tokenKey → k ≠ AuthService.roleKey →
  localStorage (exec (calls cs) w) !! k = localStorage w !! k.
Proof.
  intros Ht Hr. induction cs as [|c cs IH] using rev_ind; [reflexivity|].
  rewrite calls_snoc, <- IH. destruct c as [t r|]; unfold exec, call.
  - rewrite setSession_run. cbn [snd localStorage].
    rewrite !lookup_insert_ne by done. reflexivity.
  - rewrite logout_run. cbn [snd localStorage].
    rewrite !lookup_delete_ne by done. reflexivity.
Qed.

Lemma session_calls_keep_other_keys_witness :
  "theme" ≠ AuthService.tokenKey ∧ "theme" ≠ AuthService.roleKey ∧
  localStorage (exec (calls [SetSession "T" "R"; Logout]) tokenOnly) !! "theme" =
  localStorage tokenOnly !! "theme".
Proof.
  split; [discriminate|]. split; [discriminate|].
  apply (session_calls_keep_other_keys [SetSession "T" "R"; Logout] "theme" tokenOnly);
    discriminate.
Defined.

(** ** The page as the user drives it *)

Lemma reached_coherent (w0 : World) (es : list Event) (b : Browser) :
  play es (pageLoad w0) = Some b → Coherent b.
Proof. apply play_coherent, pageLoad_coherent. Qed.

Lemma play_offered (e : Event) (es : list Event) (b : Browser) :
  offered e b = true →
  play (e :: es) b =
  play es {| inflight := inflightAfter e (inflight b);
             world := exec (handler e) (world b) |}.
Proof. intros H. cbn [play]. unfold fire. rewrite H. reflexivity. Qed.

(** X6. On every page reached by user events after a page load, the
    dashboard is up exactly when the store is authenticated, and the
    screen is one of two: the dashboard card under the header with the
    role and the logout button, both showing the same role, or the login
    form under the header that reads "No autenticado". *)
Theorem screen_matches_session (w0 : World) (es : list Event) (b : Browser) :
  play es (pageLoad w0) = Some b →
  (currentPage (world b) = dashboard ↔
   eval AuthService.isAuthenticated (world b) = true) ∧
  match main (template (world b)) with
  | DashboardView r => header (template (world b)) = HeaderAuthenticated r
  | LoginForm _ _ _ _ _ => header (template (world b)) = HeaderAnonymous
  end.
Proof.
  intros Hplay. destruct (reached_coherent w0 es b Hplay) as [Hguard _ _ _ _ _].
  unfold template, eval. rewrite isAuthenticated_run. cbn [fst main header].
  split; [exact Hguard|].
  destruct (currentPage (world b)), (truthy (token (world b)));
    try reflexivity.
  - destruct Hguard as [_ H]. discriminate (H eq_refl).
  - destruct Hguard as [H _]. discriminate (H eq_refl).
Qed.

Lemma screen_matches_session_witness :
  play secondTry (pageLoad blank) = Some (outcomeOf secondTry) ∧
  header (template (world (outcomeOf secondTry))) = HeaderAuthenticated "R" ∧
  main (template (world (outcomeOf secondTry))) = DashboardView "R".
Proof.
  assert (H : play secondTry (pageLoad blank) = Some (outcomeOf secondTry))
    by (vm_compute; reflexivity).
  split; [exact H|].
  destruct (screen_matches_session blank secondTry (outcomeOf secondTry) H)
    as [_ Hscreen].
  split; [exact Hscreen | reflexivity].
Defined.

(** X7. On every page reached by user events after a page load, at most
    one request is in flight, and one is in flight exactly when
    [isSubmitting] is true; while it is, the template offers neither a
    second submission nor the logout button. *)
Theorem one_request_in_flight (w0 : World) (es : list Event) (b : Browser) :
  play es (pageLoad w0) = Some b →
  inflight b ≤ 1 ∧
  (isSubmitting (world b) = true ↔ inflight b = 1) ∧
  (inflight b = 1 → fire SubmitForm b = None ∧ fire ClickLogout b = None).
Proof.
  intros Hplay.
  destruct (reached_coherent w0 es b Hplay) as [Hguard Hfl Hsub _ _ _].
  destruct (isSubmitting (world b)) eqn:Hbusy; rewrite Hfl.
  - split; [lia|]. split; [done|]. intros _.
    assert (Hpage : currentPage (world b) = login) by auto.
    unfold fire. cbn [offered].
    assert (Hs : submitEnabled (template (world b)) = false).
    { destruct (submitEnabled (template (world b))) eqn:E; [|reflexivity].
      apply submitEnabled_page in E as [_ E]. congruence. }
    assert (Hl : logoutShown (template (world b)) = false).
    { destruct (logoutShown (template (world b))) eqn:E; [|reflexivity].
      apply logoutShown_authenticated, Hguard in E. congruence. }
    rewrite Hs, Hl. split; reflexivity.
  - split; [lia|]. split; [split; discriminate | discriminate].
Qed.

Lemma one_request_in_flight_witness :
  play [SubmitForm] (pageLoad blank) = Some (outcomeOf [SubmitForm]) ∧
  inflight (outcomeOf [SubmitForm]) ≤ 1 ∧
  fire SubmitForm (outcomeOf [SubmitForm]) = None.
Proof.
  assert (H : play [SubmitForm] (pageLoad blank) = Some (outcomeOf [SubmitForm]))
    by (vm_compute; reflexivity).
  split; [exact H|].
  destruct (one_request_in_flight blank [SubmitForm] (outcomeOf [SubmitForm]) H) as (Hle & _ & Hno).
  split; [exact Hle|]. destruct (Hno eq_refl) as [Hsubmit _]. exact Hsubmit.
Defined.

(** X8. On every page reached by user events after a page load, an error
    message, when there is one, is the fixed text of the failed login;
    the app is then on ['login'], not authenticated and not submitting,
    and the form shows that text above an enabled button. *)
Theorem error_only_after_failed_login
    (w0 : World) (es : list Event) (b : Browser) :
  play es (pageLoad w0) = Some b →
  ∀ msg, errorMsg (world b) = Some msg →
    msg = "Usuario o contraseña incorrectos. Por favor, inténtalo de nuevo." ∧
    currentPage (world b) = login ∧
    eval AuthService.isAuthenticated (world b) = false ∧
    isSubmitting (world b) = false ∧
    main (template (world b)) =
      LoginForm (username (loginData (world b)))
                (password (loginData (world b)))
                (Some msg) false "Ingresar".
Proof.
  intros Hplay msg Hmsg.
  destruct (reached_coherent w0 es b Hplay) as [Hguard _ _ _ _ Herr].
  destruct (Herr msg Hmsg) as (-> & Hpage & Hidle).
  split; [reflexivity|]. split; [exact Hpage|].
  unfold eval. rewrite isAuthenticated_run. cbn [fst]. split.
  - destruct (truthy (token (world b))); [|reflexivity].
    destruct Hguard as [_ H]. rewrite Hpage in H. discriminate (H eq_refl).
  - split; [exact Hidle|].
    unfold template. cbn [main]. rewrite Hpage, Hidle, Hmsg. reflexivity.
Qed.

Lemma error_only_after_failed_login_witness :
  play failedTry (pageLoad blank) = Some (outcomeOf failedTry) ∧
  errorMsg (world (outcomeOf failedTry)) = Some App.loginFailed ∧
  currentPage (world (outcomeOf failedTry)) = login.
Proof.
  assert (H : play failedTry (pageLoad blank) = Some (outcomeOf failedTry))
    by (vm_compute; reflexivity).
  split; [exact H|]. split; [reflexivity|].
  destruct (error_only_after_failed_login blank failedTry (outcomeOf failedTry)
              H App.loginFailed eq_refl) as (_ & Hpage & _).
  exact Hpage.
Defined.

(** X9. Reloading the page at any point reached by user events brings
    back the same token, the same role and the same page, and leaves
    storage as it was. *)
Theorem reload_keeps_page (w0 : World) (es : list Event) (b : Browser) :
  play es (pageLoad w0) = Some b →
  let w' := exec App.bootstrap (world b) in
  token w' = token (world b) ∧ role w' = role (world b) ∧
  currentPage w' = currentPage (world b) ∧
  localStorage w' = localStorage (world b).
Proof.
  intros Hplay w'. subst w'.
  destruct (reached_coherent w0 es b Hplay) as [Hguard _ _ Htok Hrole _].
  unfold exec. rewrite bootstrap_run.
  cbn [snd token role currentPage localStorage].
  rewrite <- Htok, <- Hrole. repeat split.
  destruct (currentPage (world b)), (truthy (token (world b)));
    try reflexivity.
  - destruct Hguard as [_ H]. discriminate (H eq_refl).
  - destruct Hguard as [H _]. discriminate (H eq_refl).
Qed.

Lemma reload_keeps_page_witness :
  play secondTry (pageLoad blank) = Some (outcomeOf secondTry) ∧
  currentPage (exec App.bootstrap (world (outcomeOf secondTry))) = dashboard.
Proof.
  assert (H : play secondTry (pageLoad blank) = Some (outcomeOf secondTry))
    by (vm_compute; reflexivity).
  split; [exact H|].
  destruct (reload_keeps_page blank secondTry (outcomeOf secondTry) H) as (_ & _ & Hpage & _).
  rewrite Hpage. reflexivity.
Defined.

(** X10. Nothing the user can do after a page load touches a storage key
    other than [jwt_token] and [user_role]. *)
Theorem events_keep_other_keys
    (w0 : World) (es : list Event) (b : Browser) (k : string) :
  play es (pageLoad w0) = Some b →
  k ≠ AuthService.tokenKey → k ≠ AuthService.roleKey →
  localStorage (world b) !! k = localStorage w0 !! k.
Proof.
  intros Hplay Ht Hr.
  assert (Hload : localStorage (world (pageLoad w0)) = localStorage w0).
  { unfold pageLoad, exec. rewrite bootstrap_run. reflexivity. }
  rewrite <- Hload. clear Hload. revert Hplay.
  generalize (pageLoad w0). induction es as [|e es IH]; intros b0; cbn [play].
  - intros [= <-]. reflexivity.
  - destruct (fire e b0) as [b1|] eqn:Hfire; [|discriminate]. cbn.
    intros Hplay. rewrite (IH b1 Hplay).
    exact (fire_other_keys e b0 b1 k Ht Hr Hfire).
Qed.

Lemma events_keep_other_keys_witness :
  play secondTry (pageLoad blank) = Some (outcomeOf secondTry) ∧
  "theme" ≠ AuthService.tokenKey ∧ "theme" ≠ AuthService.roleKey ∧
  localStorage (world (outcomeOf secondTry)) !! "theme" =
  localStorage blank !! "theme".
Proof.
  assert (H : play secondTry (pageLoad blank) = Some (outcomeOf secondTry))
    by (vm_compute; reflexivity).
  split; [exact H|]. split; [discriminate|]. split; [discriminate|].
  apply (events_keep_other_keys blank secondTry (outcomeOf secondTry) "theme" H); discriminate.
Defined.

(** X11. After a page load the app sends exactly one request per form
    submission, never one on its own and never a second one for a
    failed attempt, and every request goes to the login address. *)
Theorem one_request_per_submission
    (w0 : World) (es : list Event) (b : Browser) :
  play es (pageLoad w0) = Some b →
  ∃ sent, requests (world b) = requests w0 ++ sent ∧
          length sent = submissions es ∧
          Forall (λ req, request_url req = loginUrl) sent.
Proof.
  intros Hplay.
  assert (Hload : requests (world (pageLoad w0)) = requests w0).
  { unfold pageLoad, exec. rewrite bootstrap_run. reflexivity. }
  rewrite <- Hload. clear Hload. revert Hplay.
  generalize (pageLoad w0). revert b.
  induction es as [|e es IH]; intros b b0; cbn [play].
  - intros [= <-]. exists []. rewrite app_nil_r. repeat split. constructor.
  - destruct (fire e b0) as [b1|] eqn:Hfire; [|discriminate]. cbn.
    intros Hplay.
    destruct (fire_requests e b0 b1 Hfire) as (s1 & E1 & L1 & F1).
    destruct (IH b b1 Hplay) as (s2 & E2 & L2 & F2).
    exists (s1 ++ s2). rewrite E2, E1, app_assoc. split; [reflexivity|].
    split.
    + rewrite length_app, L1, L2. symmetry. apply submissions_cons.
    + apply Forall_app. split; assumption.
Qed.

Lemma one_request_per_submission_witness :
  play secondTry (pageLoad blank) = Some (outcomeOf secondTry) ∧
  length (requests (world (outcomeOf secondTry))) = 2.
Proof.
  assert (H : play secondTry (pageLoad blank) = Some (outcomeOf secondTry))
    by (vm_compute; reflexivity).
  split; [exact H|].
  destruct (one_request_per_submission blank secondTry (outcomeOf secondTry) H) as (sent & E & L & _).
  rewrite E, length_app, L. reflexivity.
Defined.

(** X12. Whenever the login form is up and idle, typing a username and a
    password and submitting goes through, and sends to the login address
    one request that carries exactly the two texts typed. *)
Theorem typed_credentials_are_sent (b : Browser) (u p : string) :
  currentPage (world b) = login → isSubmitting (world b) = false →
  ∃ b', play [TypeUsername u; TypePassword p; SubmitForm] b = Some b' ∧
        requests (world b') =
          requests (world b) ++
          [{| request_url := "http://localhost:8080/auth/login";
              request_body := {| username := u; password := p |} |}] ∧
        inflight b' = S (inflight b) ∧
        isSubmitting (world b') = true ∧ errorMsg (world b') = None.
Proof.
  intros Hpage Hidle. destruct b as [n w]. cbn [world inflight] in *.
  eexists. split.
  - rewrite play_offered by (apply loginFormShown_page; exact Hpage).
    rewrite play_offered by (apply loginFormShown_page; exact Hpage).
    rewrite play_offered by (apply submitEnabled_page; split; assumption).
    reflexivity.
  - cbn [world inflight inflightAfter]. repeat split.
Qed.

Lemma typed_credentials_are_sent_witness :
  currentPage (world (pageLoad blank)) = login ∧
  isSubmitting (world (pageLoad blank)) = false ∧
  ∃ b', play [TypeUsername "ana"; TypePassword "secret"; SubmitForm]
             (pageLoad blank) = Some b' ∧
        requests (world b') =
          requests (world (pageLoad blank)) ++
          [{| request_url := "http://localhost:8080/auth/login";
              request_body := {| username := "ana"; password := "secret" |} |}] ∧
        inflight b' = S (inflight (pageLoad blank)) ∧
        isSubmitting (world b') = true ∧ errorMsg (world b') = None.
Proof.
  split; [reflexivity|]. split; [reflexivity|].
  apply (typed_credentials_are_sent (pageLoad blank) "ana" "secret");
    reflexivity.
Defined.

(** X13. After a page load that comes up on the login form, submitting
    without typing anything sends the credentials the component is built
    with, [admin] and [admin123], whatever was typed before the load. *)
Theorem default_credentials_after_load (w0 : World) :
  truthy (localStorage w0 !! AuthService.tokenKey) = false →
  ∃ b', play [SubmitForm] (pageLoad w0) = Some b' ∧
        requests (world b') =
          requests w0 ++
          [{| request_url := "http://localhost:8080/auth/login";
              request_body := {| username := "admin";
                                 password := "admin123" |} |}].
Proof.
  intros Hnone. eexists. split.
  - rewrite play_offered; [reflexivity|].
    apply submitEnabled_page. unfold pageLoad, exec. rewrite bootstrap_run.
    cbn [world snd currentPage isSubmitting]. rewrite Hnone. done.
  - unfold pageLoad, exec. cbn [world handler].
    rewrite onLogin_run, bootstrap_run. reflexivity.
Qed.

Lemma default_credentials_after_load_witness :
  truthy (localStorage blank !! AuthService.tokenKey) = false ∧
  ∃ b', play [SubmitForm] (pageLoad blank) = Some b' ∧
        requests (world b') =
          requests blank ++
          [{| request_url := "http://localhost:8080/auth/login";
              request_body := {| username := "admin";
                                 password := "admin123" |} |}].
Proof.
  split; [reflexivity|].
  apply (default_credentials_after_load blank). reflexivity.
Defined.

(** X14. [logoutAndNavigate()] from any state clears both signals and
    both storage keys, lands on ['login'] with no error message, and
    logs the navigation; the guard cannot refuse it, so it never warns. *)
Theorem logoutAndNavigate_resets (w : World) :
  let w' := exec App.logoutAndNavigate w in
  token w' = None ∧ role w' = None ∧
  localStorage w' !! AuthService.tokenKey = None ∧
  localStorage w' !! AuthService.roleKey = None ∧
  eval AuthService.isAuthenticated w' = false ∧
  currentPage w' = login ∧ errorMsg w' = None ∧
  console w' = console w ++ [(Log, "Navegando a: login")] ∧
  header (template w') = HeaderAnonymous.
Proof.
  intros w'. subst w'. unfold exec, eval, template.
  rewrite logoutAndNavigate_run. rewrite !isAuthenticated_run.
  cbn [fst snd token role localStorage currentPage errorMsg console
       header truthy].
  rewrite lookup_delete_ne, !lookup_delete_eq by done.
  repeat split.
Qed.

(** X15. From the idle login form, logging in with a non-empty token
    and then clicking the logout button goes through and undoes the
    login: both storage keys are gone again, both signals are [null],
    the login form is back under the "No autenticado" header, and no
    request is left in flight beyond those there were. *)
Theorem login_then_logout (b : Browser) (T R : string) :
  currentPage (world b) = login → isSubmitting (world b) = false →
  T ≠ "" →
  ∃ b', play [SubmitForm;
              Respond (Succeeded {| response_token := T;
                                    response_role := R |});
              ClickLogout] b = Some b' ∧
        localStorage (world b') !! AuthService.tokenKey = None ∧
        localStorage (world b') !! AuthService.roleKey = None ∧
        token (world b') = None ∧ role (world b') = None ∧
        currentPage (world b') = login ∧
        header (template (world b')) = HeaderAnonymous ∧
        isSubmitting (world b') = false ∧
        inflight b' = inflight b.
Proof.
  intros Hpage Hidle HT. destruct b as [n w]. cbn [world inflight] in *.
  eexists. split.
  - rewrite play_offered by (apply submitEnabled_page; split; assumption).
    rewrite play_offered by reflexivity.
    rewrite play_offered; [reflexivity|].
    apply logoutShown_authenticated. cbn [world handler].
    unfold exec at 1. rewrite onLogin_next_run. cbn [snd token].
    apply truthy_nonempty, HT.
  - cbn [world inflight inflightAfter handler pred].
    set (w1 := exec (App.onLogin_next _) _).
    unfold exec, template, eval.
    rewrite logoutAndNavigate_run, isAuthenticated_run.
    cbn [fst snd localStorage token role currentPage isSubmitting header truthy].
    rewrite lookup_delete_ne, !lookup_delete_eq by done.
    repeat split.
    subst w1. unfold exec. rewrite onLogin_next_run. reflexivity.
Qed.

Lemma login_then_logout_witness :
  currentPage (world (pageLoad blank)) = login ∧
  isSubmitting (world (pageLoad blank)) = false ∧
  "T" ≠ "" ∧
  ∃ b', play [SubmitForm;
              Respond (Succeeded {| response_token := "T";
                                    response_role := "R" |});
              ClickLogout] (pageLoad blank) = Some b' ∧
        localStorage (world b') !! AuthService.tokenKey = None ∧
        localStorage (world b') !! AuthService.roleKey = None ∧
        token (world b') = None ∧ role (world b') = None ∧
        currentPage (world b') = login ∧
        header (template (world b')) = HeaderAnonymous ∧
        isSubmitting (world b') = false ∧
        inflight b' = inflight (pageLoad blank).
Proof.
  split; [reflexivity|]. split; [reflexivity|]. split; [discriminate|].
  apply (login_then_logout (pageLoad blank) "T" "R");
    [reflexivity | reflexivity | discriminate].
Defined.
